(** * Customer Ledger: the ledger core of [src/app/page.tsx]

    A shallow embedding of the state and of the three mutating handlers of the
    [CustomerLedger] component ([handleCustomerSubmit],
    [handleTransactionSubmit], [deleteCustomer]) together with the derived
    views [customerTransactions] and [filteredCustomers], and the properties
    of the ledger proved about them.

    - A JavaScript [number] is an IEEE 754 binary64 value: [PrimFloat.float].
    - The two [useState] cells [customers] and [transactions] are the two
      fields of [State]; a handler is a function from the state of the render
      it was created in to the state of the next render, paired with the
      notification it shows. React renders again after every submit or click
      event, so the handler of the next event reads the state the previous
      one left.
    - What a handler reads from its environment is an explicit argument: the
      clock ([Date.now()], [new Date()]) is a [Clock], the submitted form is
      a record of the values the handler extracts from [FormData]. *)

From Stdlib Require Import List String Bool NArith Arith Lia.
From Stdlib Require Import DecimalString DecimalN Floats.
Import ListNotations.

Local Open Scope string_scope.
Local Open Scope list_scope.

(** ** JavaScript values *)

Definition number := PrimFloat.float.

(** Truthiness of a number: [NaN], [+0] and [-0] are falsy. *)
Definition truthy (x : number) : bool :=
  negb (PrimFloat.is_nan x || PrimFloat.is_zero x).

(** [x || d] on numbers. *)
Definition or_else (x d : number) : number :=
  if truthy x then x else d.

(** [s || d] on strings: the empty string is falsy. *)
Definition or_else_str (s d : string) : string :=
  if String.eqb s "" then d else s.

(** [n.toString()] for a non-negative integer [n]. *)
Definition toString (n : N) : string :=
  NilEmpty.string_of_uint (N.to_uint n).

(** ** Data model (the two interfaces of page.tsx) *)

Module Customer.
Record t := mk {
    id : string;
    name : string;
    phone : string;
    email : string;
    address : string;
    openingBalance : number;
    notes : string;
    balance : number;
    lastTransaction : string
  }.
End Customer.

Inductive TransactionType := debit | credit.

Module Transaction.
Record t := mk {
    id : string;
    customerId : string;
    type : TransactionType;
    amount : number;
    date : string;
    description : string;
    balance : number
  }.
End Transaction.

(** The component state the ledger lives in. *)
Record State := mkState {
  customers : list Customer.t;
  transactions : list Transaction.t
}.

(** [useState([])] for both cells. *)
Definition initialState : State := mkState [] [].

Definition setCustomers (f : list Customer.t -> list Customer.t) (st : State) : State :=
  mkState (f (customers st)) (transactions st).

Definition setTransactions (f : list Transaction.t -> list Transaction.t) (st : State) : State :=
  mkState (customers st) (f (transactions st)).

(** ** Environment of a handler *)

(** The readings of the clock a handler takes. *)
Record Clock := mkClock {
  now : N;                 (* Date.now() *)
  localeDate : string;     (* new Date().toLocaleDateString() *)
  isoDate : string         (* new Date().toISOString().split('T')[0] *)
}.

(** The values [handleCustomerSubmit] extracts from the submitted form;
    [openingBalanceInput] is [parseFloat(formData.get('openingBalance'))],
    which is [NaN] when the text does not start with a number. *)
Record CustomerForm := mkCustomerForm {
  customerName : string;
  customerPhone : string;
  customerEmail : string;
  customerAddress : string;
  openingBalanceInput : number;
  customerNotes : string
}.

(** The values [handleTransactionSubmit] extracts from the submitted form;
    [transactionAmount] is [parseFloat(formData.get('transactionAmount'))]. *)
Record TransactionForm := mkTransactionForm {
  transactionCustomer : string;
  transactionType : TransactionType;
  transactionAmount : number;
  transactionDate : string;
  transactionDescription : string
}.

(** ** Notifications *)

Inductive NotificationType := success | error.

Record Notification := mkNotification {
  message : string;
  kind : NotificationType
}.

Definition showNotification (m : string) (k : NotificationType) : Notification :=
  mkNotification m k.

(** What a handler leaves behind: the next state and the notification shown,
    if any. *)
Definition Outcome := (State * option Notification)%type.

(** ** The handlers

    [e.preventDefault()] and the reset of the form act on the page only and
    are left out. *)

Definition handleCustomerSubmit (clk : Clock) (form : CustomerForm) (st : State) : Outcome :=
  let newCustomer :=
    Customer.mk
      (toString (now clk))
      (customerName form)
      (customerPhone form)
      (customerEmail form)
      (customerAddress form)
      (or_else (openingBalanceInput form) 0%float)
      (customerNotes form)
      (or_else (openingBalanceInput form) 0%float)
      (localeDate clk) in
  (setCustomers (fun prev => prev ++ [newCustomer]) st,
   Some (showNotification "Customer added successfully!" success)).

(** [type === 'debit' ? balance + amount : balance - amount] *)
Definition newBalance (type : TransactionType) (balance amount : number) : number :=
  match type with
  | debit => (balance + amount)%float
  | credit => (balance - amount)%float
  end.

(** [{ ...c, balance: newBalance, lastTransaction: ... }] *)
Definition withBalance (c : Customer.t) (b : number) (last : string) : Customer.t :=
  Customer.mk (Customer.id c) (Customer.name c) (Customer.phone c) (Customer.email c)
    (Customer.address c) (Customer.openingBalance c) (Customer.notes c) b last.

Definition handleTransactionSubmit (clk : Clock) (form : TransactionForm) (st : State) : Outcome :=
  let customerId := transactionCustomer form in
  let type := transactionType form in
  let amount := transactionAmount form in
  let date := or_else_str (transactionDate form) (isoDate clk) in
  let description := transactionDescription form in
  match find (fun c => String.eqb (Customer.id c) customerId) (customers st) with
  | None => (st, None)
  | Some customer =>
      let nb := newBalance type (Customer.balance customer) amount in
      let newTransaction :=
        Transaction.mk (toString (now clk)) customerId type amount date description nb in
      let st1 := setTransactions (fun prev => prev ++ [newTransaction]) st in
      let st2 :=
        setCustomers
          (fun prev =>
             map (fun c =>
                    if String.eqb (Customer.id c) customerId
                    then withBalance c nb (localeDate clk)
                    else c) prev) st1 in
      (st2, Some (showNotification "Transaction recorded successfully!" success))
  end.

Definition deleteCustomer (customerId : string) (st : State) : Outcome :=
  let st1 :=
    setCustomers (fun prev => filter (fun c => negb (String.eqb (Customer.id c) customerId)) prev) st in
  let st2 :=
    setTransactions
      (fun prev => filter (fun t => negb (String.eqb (Transaction.customerId t) customerId)) prev) st1 in
  (st2, Some (showNotification "Customer deleted successfully!" success)).

(** The history shown for the selected customer. *)
Definition customerTransactions (selectedCustomer : option Customer.t) (st : State)
  : list Transaction.t :=
  match selectedCustomer with
  | Some c =>
      filter (fun t => String.eqb (Transaction.customerId t) (Customer.id c)) (transactions st)
  | None => []
  end.

(** ** Runs of the ledger *)

(** The three mutating events of the page, each with what its handler reads. *)
Inductive Op :=
| CreateCustomer (clk : Clock) (form : CustomerForm)
| RecordTransaction (clk : Clock) (form : TransactionForm)
| DeleteCustomer (customerId : string).

Definition dispatch (op : Op) (st : State) : Outcome :=
  match op with
  | CreateCustomer clk form => handleCustomerSubmit clk form st
  | RecordTransaction clk form => handleTransactionSubmit clk form st
  | DeleteCustomer customerId => deleteCustomer customerId st
  end.

(** The state of the render that follows the event. *)
Definition step (op : Op) (st : State) : State := fst (dispatch op st).

Definition run (ops : list Op) (st : State) : State :=
  fold_left (fun s op => step op s) ops st.

(** The states rendered along a run: the one before the first event, then the
    one after each event. React applies all the updates a handler queued
    before it renders again, so nothing else is ever shown or saved. *)
Fixpoint renders (ops : list Op) (st : State) : list State :=
  st :: match ops with
        | [] => []
        | op :: rest => renders rest (step op st)
        end.

(** [customers.find(c => c.id === customerId)] finds something. *)
Definition hasId (customerId : string) (st : State) : bool :=
  existsb (fun c => String.eqb (Customer.id c) customerId) (customers st).

(** Along the run, [Date.now()] gives every new customer an id that no
    customer of the store carries at that moment. *)
Fixpoint freshIds (ops : list Op) (st : State) : bool :=
  match ops with
  | [] => true
  | op :: rest =>
      match op with
      | CreateCustomer clk _ => negb (hasId (toString (now clk)) st)
      | _ => true
      end && freshIds rest (step op st)
  end.

(** ** Balances of a history *)

(** The history of a customer: its transactions in insertion order. *)
Definition history (c : Customer.t) (st : State) : list Transaction.t :=
  customerTransactions (Some c) st.

(** [+amount] for a debit, [-amount] for a credit. *)
Definition signedAmount (t : Transaction.t) : number :=
  match Transaction.type t with
  | debit => Transaction.amount t
  | credit => (- Transaction.amount t)%float
  end.

(** One more transaction on a balance, as [handleTransactionSubmit] computes it. *)
Definition applyTransaction (b : number) (t : Transaction.t) : number :=
  newBalance (Transaction.type t) b (Transaction.amount t).

(** The running balances of a history that starts from [b]. *)
Fixpoint runningBalances (b : number) (h : list Transaction.t) : list number :=
  match h with
  | [] => []
  | t :: rest => applyTransaction b t :: runningBalances (applyTransaction b t) rest
  end.

(** The opening balance plus the signed amounts of a history, one after the
    other in the order of the history. *)
Definition ledgerSum (openingBalance : number) (h : list Transaction.t) : number :=
  fold_left (fun acc t => (acc + signedAmount t)%float) h openingBalance.



(** ** Invariants of the store *)

(** No two customers of the store share an id. *)
Definition uniqueIds (st : State) : Prop :=
  NoDup (map Customer.id (customers st)).

(** Every transaction refers to a customer of the store. *)
Definition noOrphans (st : State) : Prop :=
  forall t, In t (transactions st) -> hasId (Transaction.customerId t) st = true.

(** The stored balance of [c] and the balances recorded in its history are
    the ones the history produces from the opening balance. *)
Definition consistent (st : State) (c : Customer.t) : Prop :=
  Customer.balance c = fold_left applyTransaction (history c st) (Customer.openingBalance c)
  /\ map Transaction.balance (history c st)
     = runningBalances (Customer.openingBalance c) (history c st).

Definition ledgerInvariant (st : State) : Prop :=
  uniqueIds st /\ noOrphans st /\ forall c, In c (customers st) -> consistent st c.

(** ** What a successful [handleTransactionSubmit] writes *)

(** The transaction recorded for [customer], the customer the id resolved to. *)
Definition recordedTransaction (clk : Clock) (form : TransactionForm) (customer : Customer.t)
  : Transaction.t :=
  Transaction.mk
    (toString (now clk))
    (transactionCustomer form)
    (transactionType form)
    (transactionAmount form)
    (or_else_str (transactionDate form) (isoDate clk))
    (transactionDescription form)
    (newBalance (transactionType form) (Customer.balance customer) (transactionAmount form)).

(** The customer collection after the update of the balance. *)
Definition updatedCustomers (clk : Clock) (form : TransactionForm) (customer : Customer.t)
  (prev : list Customer.t) : list Customer.t :=
  map (fun c =>
         if String.eqb (Customer.id c) (transactionCustomer form)
         then withBalance c
                (newBalance (transactionType form) (Customer.balance customer)
                   (transactionAmount form))
                (localeDate clk)
         else c) prev.

(** An error was reported to the user. *)
Definition reportsError (o : Outcome) : bool :=
  match snd o with
  | Some n => match kind n with error => true | success => false end
  | None => false
  end.

(** ** Sample inputs *)

Definition clockAt (ms : N) : Clock := mkClock ms "11/2/2026" "2026-11-02".

Definition customerForm (name : string) (opening : number) : CustomerForm :=
  mkCustomerForm name "" "" "" opening "".

Definition transactionForm (customerId : string) (type : TransactionType) (amount : number)
  : TransactionForm :=
  mkTransactionForm customerId type amount "" "".

(** One customer opened at 100, then a debit of 50 and a credit of 30. *)
Definition scenarioOps : list Op :=
  [ CreateCustomer (clockAt 1000) (customerForm "C" 100%float);
    RecordTransaction (clockAt 2000) (transactionForm "1000" debit 50%float);
    RecordTransaction (clockAt 3000) (transactionForm "1000" credit 30%float) ].

Definition scenarioCustomer : Customer.t :=
  Customer.mk "1000" "C" "" "" "" 100%float "" 120%float "11/2/2026".

Definition scenarioDebit : Transaction.t :=
  Transaction.mk "2000" "1000" debit 50%float "2026-11-02" "" 150%float.

Definition scenarioCredit : Transaction.t :=
  Transaction.mk "3000" "1000" credit 30%float "2026-11-02" "" 120%float.

(** Two customers A and B, both opened at 0. *)
Definition twoCustomersOps : list Op :=
  [ CreateCustomer (clockAt 1000) (customerForm "A" 0%float);
    CreateCustomer (clockAt 2000) (customerForm "B" 0%float) ].

Definition customerB : Customer.t :=
  Customer.mk "2000" "B" "" "" "" 0%float "" 0%float "11/2/2026".

(** Two customers created within the same millisecond. *)
Definition sameMillisecondOps : list Op :=
  [ CreateCustomer (clockAt 1000) (customerForm "A" 0%float);
    CreateCustomer (clockAt 1000) (customerForm "B" 7%float);
    RecordTransaction (clockAt 2000) (transactionForm "1000" debit 20%float) ].

(** ** The search box and the customer select *)

(** [s.includes(searchString)]: [searchString] occurs somewhere in [s]. *)
Fixpoint includes (s searchString : string) : bool :=
  String.prefix searchString s
  || match s with
     | EmptyString => false
     | String _ rest => includes rest searchString
     end.

Section Search.

(** [String.prototype.toLowerCase], whose case mapping is the one of Unicode,
    is kept abstract: what is proved of the search holds whatever it is. *)
Variable toLowerCase : string -> string.

(** The predicate [filteredCustomers] filters with. *)
Definition matchesSearch (searchTerm : string) (customer : Customer.t) : bool :=
  includes (toLowerCase (Customer.name customer)) (toLowerCase searchTerm)
  || includes (Customer.phone customer) searchTerm
  || includes (toLowerCase (Customer.email customer)) (toLowerCase searchTerm).

(** The customers listed in the table for the search term typed in. *)
Definition filteredCustomers (searchTerm : string) (st : State) : list Customer.t :=
  filter (matchesSearch searchTerm) (customers st).

End Search.

(** The values offered by the select [transactionCustomer] of the transaction
    form: the placeholder, then the id of every customer. *)
Definition transactionCustomerOptions (st : State) : list string :=
  "" :: map Customer.id (customers st).

(** ** The customer form

    [handleCustomerSubmit] is the [onSubmit] of the customer form and has no
    other caller. The browser sends the submit event only when the inputs of
    the form satisfy their constraints: [customerName] is [required], and the
    inputs of type email and number have the constraints of their type. *)




(** ** Readings of runs *)

(** The readings of [Date.now()] at which the customers of a run are created. *)
Fixpoint creationTimes (ops : list Op) : list N :=
  match ops with
  | [] => []
  | CreateCustomer clk _ :: rest => now clk :: creationTimes rest
  | _ :: rest => creationTimes rest
  end.

(** No customer is deleted in the run. *)
Definition withoutDeletion (ops : list Op) : bool :=
  forallb (fun op => match op with DeleteCustomer _ => false | _ => true end) ops.

(** What [handleTransactionSubmit] leaves of a customer as it is: everything
    but the balance and the date of the last transaction. *)
Definition profile (c : Customer.t)
  : string * string * string * string * string * number * string :=
  (Customer.id c, Customer.name c, Customer.phone c, Customer.email c,
   Customer.address c, Customer.openingBalance c, Customer.notes c).

(** The balance shown in the last row of a history, the opening balance when
    the history is empty. *)
Definition lastRecordedBalance (c : Customer.t) (h : list Transaction.t) : number :=
  last (map Transaction.balance h) (Customer.openingBalance c).

(** ** More sample inputs *)



(** Lower case of the letters A to Z, every other character kept: what
    [toLowerCase] does on ASCII text. *)
Definition lowerAsciiChar (ch : Ascii.ascii) : Ascii.ascii :=
  let n := Ascii.nat_of_ascii ch in
  if (65 <=? n)%nat && (n <=? 90)%nat then Ascii.ascii_of_nat (n + 32) else ch.

Fixpoint lowerAscii (s : string) : string :=
  match s with
  | EmptyString => EmptyString
  | String ch rest => String (lowerAsciiChar ch) (lowerAscii rest)
  end.

Definition aliceForm : CustomerForm :=
  mkCustomerForm "Alice Martin" "555-0101" "Alice@Example.com" "" 0%float "".

(** * Properties *)

Example toString_1700 : toString 1700000000000 = "1700000000000".
Proof. reflexivity. Qed.

Example toString_0 : toString 0 = "0".
Proof. reflexivity. Qed.

Example or_else_nan : or_else PrimFloat.nan 0%float = 0%float.
Proof. reflexivity. Qed.

Example newBalance_ex :
  newBalance credit (newBalance debit 100%float 50%float) 30%float = 120%float.
Proof. reflexivity. Qed.

(** ** Numbers *)






Lemma runningBalances_app b h t :
  runningBalances b (h ++ [t])
  = runningBalances b h ++ [applyTransaction (fold_left applyTransaction h b) t].
Proof.
  revert b. induction h as [|u h IH]; intro b; simpl; [reflexivity|].
  rewrite IH. reflexivity.
Qed.


(** ** Lists of customers *)

Lemma hasId_In cid st :
  hasId cid st = true <-> In cid (map Customer.id (customers st)).
Proof.
  unfold hasId. rewrite existsb_exists, in_map_iff.
  split; intros [c [H1 H2]]; exists c.
  - apply String.eqb_eq in H2. auto.
  - split; [assumption | apply String.eqb_eq; assumption].
Qed.

Lemma hasId_false_find cid st :
  hasId cid st = false ->
  find (fun c => String.eqb (Customer.id c) cid) (customers st) = None.
Proof.
  unfold hasId. induction (customers st) as [|c l IH]; simpl; [reflexivity|].
  destruct (String.eqb (Customer.id c) cid); simpl; [discriminate | exact IH].
Qed.

Lemma find_hasId cid st c :
  find (fun c => String.eqb (Customer.id c) cid) (customers st) = Some c ->
  In c (customers st) /\ Customer.id c = cid /\ hasId cid st = true.
Proof.
  intro H. apply find_some in H. destruct H as [H1 H2].
  apply String.eqb_eq in H2. repeat split; try assumption.
  apply hasId_In. rewrite <- H2. apply in_map. assumption.
Qed.

(** ** Lists: what [filter] and [map] keep *)

Section MapFacts.

Context {A B : Type}.
Variable f : A -> B.

Lemma NoDup_map_injective l x y :
  NoDup (map f l) -> In x l -> In y l -> f x = f y -> x = y.
Proof.
  induction l as [|a l IH]; simpl; intros Hnd Hx Hy Hf; [contradiction|].
  inversion Hnd as [|? ? Hnotin Hnd']; subst.
  destruct Hx as [->|Hx], Hy as [->|Hy].
  - reflexivity.
  - exfalso. apply Hnotin. rewrite Hf. apply in_map. assumption.
  - exfalso. apply Hnotin. rewrite <- Hf. apply in_map. assumption.
  - apply IH; assumption.
Qed.

Lemma NoDup_map_filter (p : A -> bool) l :
  NoDup (map f l) -> NoDup (map f (filter p l)).
Proof.
  induction l as [|a l IH]; simpl; intro Hnd; [constructor|].
  inversion Hnd as [|? ? Hnotin Hnd']; subst.
  destruct (p a); simpl; [|auto].
  constructor; [|auto].
  intro Hin. apply Hnotin. apply in_map_iff in Hin.
  destruct Hin as [x [Hx Hin]]. apply filter_In in Hin.
  rewrite <- Hx. apply in_map. tauto.
Qed.

End MapFacts.

Section FilterFacts.

Context {A : Type}.

Lemma filter_agree (p q : A -> bool) l :
  (forall x, In x l -> p x = q x) -> filter p l = filter q l.
Proof.
  induction l as [|a l IH]; simpl; intro H; [reflexivity|].
  rewrite (H a (or_introl eq_refl)), IH; [reflexivity|].
  intros x Hx. apply H. right. assumption.
Qed.

Lemma filter_all (p : A -> bool) l :
  (forall x, In x l -> p x = true) -> filter p l = l.
Proof.
  induction l as [|a l IH]; simpl; intro H; [reflexivity|].
  rewrite (H a (or_introl eq_refl)), IH; [reflexivity|].
  intros x Hx. apply H. right. assumption.
Qed.

Lemma filter_none (p : A -> bool) l :
  (forall x, In x l -> p x = false) -> filter p l = [].
Proof.
  induction l as [|a l IH]; simpl; intro H; [reflexivity|].
  rewrite (H a (or_introl eq_refl)). apply IH.
  intros x Hx. apply H. right. assumption.
Qed.

Lemma filter_filter (p q : A -> bool) l :
  filter p (filter q l) = filter (fun x => q x && p x) l.
Proof.
  induction l as [|a l IH]; simpl; [reflexivity|].
  destruct (q a); simpl; [destruct (p a)|]; rewrite IH; reflexivity.
Qed.

End FilterFacts.

(** ** The handlers, case by case *)

(** Case analysis on the lookup [handleTransactionSubmit] starts with. *)
Ltac lookup_customer form st customer H :=
  destruct (find (fun c => String.eqb (Customer.id c) (transactionCustomer form))
              (customers st)) as [customer|] eqn:H.

Lemma handleTransactionSubmit_unknown clk form st :
  hasId (transactionCustomer form) st = false ->
  handleTransactionSubmit clk form st = (st, None).
Proof.
  intro H. unfold handleTransactionSubmit.
  rewrite (hasId_false_find _ _ H). reflexivity.
Qed.

Lemma handleTransactionSubmit_found clk form st customer :
  find (fun c => String.eqb (Customer.id c) (transactionCustomer form)) (customers st)
  = Some customer ->
  handleTransactionSubmit clk form st
  = (mkState (updatedCustomers clk form customer (customers st))
             (transactions st ++ [recordedTransaction clk form customer]),
     Some (showNotification "Transaction recorded successfully!" success)).
Proof.
  intro H. unfold handleTransactionSubmit. rewrite H. reflexivity.
Qed.

Lemma updatedCustomers_ids clk form customer l :
  map Customer.id (updatedCustomers clk form customer l) = map Customer.id l.
Proof.
  unfold updatedCustomers. rewrite map_map. apply map_ext.
  intro c. destruct (String.eqb (Customer.id c) (transactionCustomer form)); reflexivity.
Qed.

(** ** Referential integrity, along every run *)

Lemma noOrphans_step op st : noOrphans st -> noOrphans (step op st).
Proof.
  intros Hst t Ht. destruct op as [clk form|clk form|cid]; unfold step, dispatch in *.
  - simpl in *. apply hasId_In. simpl. rewrite map_app. apply in_or_app. left.
    apply hasId_In. apply Hst. assumption.
  - lookup_customer form st customer Hfind.
    + rewrite (handleTransactionSubmit_found _ _ _ _ Hfind) in *. simpl in *.
      apply hasId_In. simpl. rewrite updatedCustomers_ids. apply hasId_In.
      apply in_app_or in Ht. destruct Ht as [Ht|[<-|[]]].
      * apply Hst. assumption.
      * simpl. apply (find_hasId _ _ _ Hfind).
    + unfold handleTransactionSubmit in *. rewrite Hfind in *. simpl in *.
      apply Hst. assumption.
  - simpl in *. apply filter_In in Ht. destruct Ht as [Ht Hne].
    apply Hst in Ht. apply hasId_In in Ht. apply in_map_iff in Ht.
    destruct Ht as [c [Hc Hin]].
    apply hasId_In. simpl. apply in_map_iff. exists c. split; [assumption|].
    apply filter_In. split; [assumption|]. rewrite Hc. assumption.
Qed.

Lemma noOrphans_run ops st : noOrphans st -> noOrphans (run ops st).
Proof.
  revert st. induction ops as [|op ops IH]; intros st H; simpl; [assumption|].
  apply IH. apply noOrphans_step. assumption.
Qed.

Lemma noOrphans_initial : noOrphans initialState.
Proof. intros t []. Qed.

(** ** The ledger invariant, along runs with fresh ids *)

Lemma consistent_same_transactions st st' c :
  transactions st' = transactions st -> consistent st c -> consistent st' c.
Proof.
  unfold consistent, history, customerTransactions. intros ->. tauto.
Qed.

Lemma history_unknown st c :
  noOrphans st -> hasId (Customer.id c) st = false -> history c st = [].
Proof.
  intros Hno Hid. unfold history, customerTransactions.
  apply filter_none. intros t Ht.
  destruct (String.eqb (Transaction.customerId t) (Customer.id c)) eqn:E; [|reflexivity].
  apply String.eqb_eq in E. apply Hno in Ht. congruence.
Qed.

Lemma ledgerInvariant_create clk form st :
  ledgerInvariant st ->
  hasId (toString (now clk)) st = false ->
  ledgerInvariant (step (CreateCustomer clk form) st).
Proof.
  intros (Huniq & Hno & Hcons) Hfresh.
  split; [|split].
  - unfold uniqueIds, step. simpl. rewrite map_app. simpl.
    apply NoDup_app; [assumption | repeat constructor; intros [] |].
    intros a Ha [<-|[]]. apply hasId_In in Ha. congruence.
  - apply noOrphans_step. assumption.
  - intros c Hc. unfold step in Hc. simpl in Hc.
    apply in_app_or in Hc. destruct Hc as [Hc|[<-|[]]].
    + apply (consistent_same_transactions st); [reflexivity | auto].
    + unfold consistent.
      replace (history _ _) with (@nil Transaction.t); [split; reflexivity|].
      symmetry. apply (history_unknown st); assumption.
Qed.

Lemma history_record_same clk form customer st c cs :
  Customer.id c = transactionCustomer form ->
  history c (mkState cs (transactions st ++ [recordedTransaction clk form customer]))
  = history c st ++ [recordedTransaction clk form customer].
Proof.
  intro Hid. unfold history, customerTransactions. simpl.
  rewrite filter_app. simpl. rewrite Hid, String.eqb_refl. reflexivity.
Qed.

Lemma history_record_other clk form customer st c cs :
  Customer.id c <> transactionCustomer form ->
  history c (mkState cs (transactions st ++ [recordedTransaction clk form customer]))
  = history c st.
Proof.
  intro Hid. unfold history, customerTransactions. simpl.
  rewrite filter_app. simpl.
  replace (String.eqb (transactionCustomer form) (Customer.id c)) with false.
  - apply app_nil_r.
  - symmetry. apply String.eqb_neq. congruence.
Qed.

Lemma ledgerInvariant_record clk form st :
  ledgerInvariant st -> ledgerInvariant (step (RecordTransaction clk form) st).
Proof.
  intros (Huniq & Hno & Hcons).
  split; [|split].
  - unfold uniqueIds, step, dispatch.
    lookup_customer form st customer Hfind.
    + rewrite (handleTransactionSubmit_found _ _ _ _ Hfind). simpl.
      rewrite updatedCustomers_ids. assumption.
    + unfold handleTransactionSubmit. rewrite Hfind. assumption.
  - apply noOrphans_step. assumption.
  - intros c' Hc'. unfold step, dispatch in *.
    lookup_customer form st customer Hfind.
    + rewrite (handleTransactionSubmit_found _ _ _ _ Hfind) in *. simpl in *.
      destruct (find_hasId _ _ _ Hfind) as (Hin & Hcid & _).
      unfold updatedCustomers in Hc'. apply in_map_iff in Hc'.
      destruct Hc' as [c [Hupd Hc]].
      destruct (String.eqb (Customer.id c) (transactionCustomer form)) eqn:E.
      * apply String.eqb_eq in E.
        assert (c = customer) as ->.
        { apply (NoDup_map_injective Customer.id (customers st)); try assumption.
          congruence. }
        destruct (Hcons customer Hin) as [Hbal Hrun].
        subst c'. unfold consistent.
        rewrite history_record_same by exact E.
        replace (history (withBalance customer _ _) st) with (history customer st)
          by reflexivity.
        simpl. rewrite fold_left_app, map_app, runningBalances_app. simpl.
        rewrite <- Hbal, Hrun. split; reflexivity.
      * apply String.eqb_neq in E. subst c'.
        destruct (Hcons c Hc) as [Hbal Hrun]. unfold consistent.
        rewrite history_record_other by exact E. split; assumption.
    + unfold handleTransactionSubmit in *. rewrite Hfind in *. simpl in *. auto.
Qed.

Lemma history_delete cid st c :
  Customer.id c <> cid ->
  history c (step (DeleteCustomer cid) st) = history c st.
Proof.
  intro Hid. unfold history, customerTransactions, step. simpl.
  rewrite filter_filter. apply filter_agree. intros t _.
  destruct (String.eqb (Transaction.customerId t) (Customer.id c)) eqn:E.
  - apply String.eqb_eq in E. rewrite andb_true_r.
    apply negb_true_iff. apply String.eqb_neq. congruence.
  - apply andb_false_r.
Qed.

Lemma ledgerInvariant_delete cid st :
  ledgerInvariant st -> ledgerInvariant (step (DeleteCustomer cid) st).
Proof.
  intros (Huniq & Hno & Hcons).
  split; [|split].
  - unfold uniqueIds, step. simpl. apply NoDup_map_filter. assumption.
  - apply noOrphans_step. assumption.
  - intros c Hc. unfold step in Hc. simpl in Hc.
    apply filter_In in Hc. destruct Hc as [Hc Hne].
    apply negb_true_iff, String.eqb_neq in Hne.
    destruct (Hcons c Hc) as [Hbal Hrun]. unfold consistent.
    rewrite history_delete by exact Hne. split; assumption.
Qed.

Lemma ledgerInvariant_initial : ledgerInvariant initialState.
Proof.
  split; [constructor | split; [exact noOrphans_initial | intros c []]].
Qed.

Lemma ledgerInvariant_run ops st :
  ledgerInvariant st -> freshIds ops st = true -> ledgerInvariant (run ops st).
Proof.
  revert st. induction ops as [|op ops IH]; intros st Hinv Hfresh; simpl; [assumption|].
  simpl in Hfresh. apply andb_true_iff in Hfresh. destruct Hfresh as [Hop Hrest].
  apply IH; [|assumption].
  destruct op as [clk form|clk form|cid].
  - apply ledgerInvariant_create; [assumption|].
    apply negb_true_iff. assumption.
  - apply ledgerInvariant_record. assumption.
  - apply ledgerInvariant_delete. assumption.
Qed.

(** * The claims *)

(** ** Sanity: the scenario of the specification *)

Example scenario_state :
  run scenarioOps initialState = mkState [scenarioCustomer] [scenarioDebit; scenarioCredit].
Proof. reflexivity. Qed.

Example scenario_deleted :
  run (scenarioOps ++ [DeleteCustomer "1000"]) initialState = initialState.
Proof. reflexivity. Qed.

(** ** Balances *)











(** The condition on the ids is needed: two customers created within one
    millisecond share an id, a transaction recorded for it overwrites the
    balance of both, and the second no longer carries its own sum. *)
Remark shared_id_breaks_the_sum :
  freshIds sameMillisecondOps initialState = false
  /\ map Customer.balance (customers (run sameMillisecondOps initialState))
     = [20%float; 20%float]
  /\ map (fun c => ledgerSum (Customer.openingBalance c)
                     (history c (run sameMillisecondOps initialState)))
       (customers (run sameMillisecondOps initialState))
     = [20%float; 27%float].
Proof. repeat split; reflexivity. Qed.

(** ** Recording a transaction *)

(** C3, as the specification has it, fails: with one customer in the store, a
    debit of 0 and a debit of -5 are both recorded, the second one lowering
    the balance from 100 to 95, and both are announced as successes. *)
Lemma nonpositive_amount_is_accepted :
  (0 <=? 0)%float = true
  /\ handleTransactionSubmit (clockAt 2000) (transactionForm "1000" debit 0%float)
       (run [CreateCustomer (clockAt 1000) (customerForm "C" 100%float)] initialState)
     = (mkState
          [Customer.mk "1000" "C" "" "" "" 100%float "" 100%float "11/2/2026"]
          [Transaction.mk "2000" "1000" debit 0%float "2026-11-02" "" 100%float],
        Some (showNotification "Transaction recorded successfully!" success))
  /\ (-5 <=? 0)%float = true
  /\ handleTransactionSubmit (clockAt 2000) (transactionForm "1000" debit (-5)%float)
       (run [CreateCustomer (clockAt 1000) (customerForm "C" 100%float)] initialState)
     = (mkState
          [Customer.mk "1000" "C" "" "" "" 100%float "" 95%float "11/2/2026"]
          [Transaction.mk "2000" "1000" debit (-5)%float "2026-11-02" "" 95%float],
        Some (showNotification "Transaction recorded successfully!" success)).
Proof. repeat split; reflexivity. Qed.

(** C3, amended. The handler does not look at the sign of the amount: a call
    with a zero or negative amount is carried out like any other. When the
    customer id resolves, the transaction is appended with that amount and
    with the running balance [balance + amount] (debit) or [balance - amount]
    (credit), the customer's balance becomes that value, and success is
    notified; when it does not resolve, the state is left as it was and
    nothing is notified. No error is reported in either case. *)
Theorem nonpositive_amount_is_recorded (clk : Clock) (form : TransactionForm) (st : State) :
  (transactionAmount form <=? 0)%float = true ->
  match find (fun c => String.eqb (Customer.id c) (transactionCustomer form)) (customers st) with
  | Some customer =>
      handleTransactionSubmit clk form st
      = (mkState (updatedCustomers clk form customer (customers st))
                 (transactions st ++ [recordedTransaction clk form customer]),
         Some (showNotification "Transaction recorded successfully!" success))
  | None => handleTransactionSubmit clk form st = (st, None)
  end
  /\ reportsError (handleTransactionSubmit clk form st) = false.
Proof.
  intros _. unfold reportsError, handleTransactionSubmit.
  destruct (find _ (customers st)) as [customer|]; split; reflexivity.
Qed.

Lemma nonpositive_amount_is_recorded_witness :
  handleTransactionSubmit (clockAt 2000) (transactionForm "1000" credit (-5)%float)
    (mkState [Customer.mk "1000" "C" "" "" "" 100%float "" 100%float "11/2/2026"] [])
  = (mkState
       [Customer.mk "1000" "C" "" "" "" 100%float "" 105%float "11/2/2026"]
       [Transaction.mk "2000" "1000" credit (-5)%float "2026-11-02" "" 105%float],
     Some (showNotification "Transaction recorded successfully!" success))
  /\ reportsError
       (handleTransactionSubmit (clockAt 2000) (transactionForm "1000" credit (-5)%float)
          (mkState [Customer.mk "1000" "C" "" "" "" 100%float "" 100%float "11/2/2026"] []))
     = false.
Proof.
  apply (nonpositive_amount_is_recorded
           (clockAt 2000) (transactionForm "1000" credit (-5)%float)
           (mkState [Customer.mk "1000" "C" "" "" "" 100%float "" 100%float "11/2/2026"] [])).
  reflexivity.
Defined.

(** C4, as the specification has it, fails: for an id no customer carries the
    handler returns without showing anything, so no error is reported. *)
Lemma unknown_customer_reports_nothing :
  hasId "4242" (run scenarioOps initialState) = false
  /\ snd (handleTransactionSubmit (clockAt 4000) (transactionForm "4242" debit 20%float)
            (run scenarioOps initialState)) = None
  /\ reportsError
       (handleTransactionSubmit (clockAt 4000) (transactionForm "4242" debit 20%float)
          (run scenarioOps initialState)) = false.
Proof. repeat split; reflexivity. Qed.

(** C4, amended. A call whose customer id resolves to no customer of the store
    returns at once: both collections are exactly the ones before the call and
    nothing is notified, neither a success nor an error. *)
Theorem unknown_customer_is_silent_noop (clk : Clock) (form : TransactionForm) (st : State) :
  hasId (transactionCustomer form) st = false ->
  handleTransactionSubmit clk form st = (st, None).
Proof.
  exact (handleTransactionSubmit_unknown clk form st).
Qed.

Lemma unknown_customer_is_silent_noop_witness :
  handleTransactionSubmit (clockAt 4000) (transactionForm "4242" debit 20%float)
    (run scenarioOps initialState)
  = (run scenarioOps initialState, None).
Proof.
  apply (unknown_customer_is_silent_noop
           (clockAt 4000) (transactionForm "4242" debit 20%float) (run scenarioOps initialState)).
  reflexivity.
Defined.

(** C6. Recording a transaction for one customer leaves every customer with
    another id exactly as it was, at its place in the collection (balance and
    lastTransaction included), and leaves the history of that other customer
    as it was. *)
Theorem record_leaves_other_customers
  (clk : Clock) (form : TransactionForm) (st : State) (i : nat) (b : Customer.t) :
  nth_error (customers st) i = Some b ->
  Customer.id b <> transactionCustomer form ->
  nth_error (customers (step (RecordTransaction clk form) st)) i = Some b
  /\ history b (step (RecordTransaction clk form) st) = history b st.
Proof.
  intros Hb Hid. unfold step, dispatch.
  lookup_customer form st customer Hfind.
  - rewrite (handleTransactionSubmit_found _ _ _ _ Hfind). simpl. split.
    + unfold updatedCustomers. rewrite nth_error_map, Hb. simpl.
      apply String.eqb_neq in Hid. rewrite Hid. reflexivity.
    + apply history_record_other. assumption.
  - unfold handleTransactionSubmit. rewrite Hfind. simpl. auto.
Qed.

(** The scenario of C6: A and B opened at 0, a debit of 20 recorded for A;
    B keeps the balance 0 and an empty history. *)
Lemma record_leaves_other_customers_witness :
  (nth_error
     (customers (step (RecordTransaction (clockAt 3000) (transactionForm "1000" debit 20%float))
                   (run twoCustomersOps initialState))) 1 = Some customerB
   /\ history customerB
        (step (RecordTransaction (clockAt 3000) (transactionForm "1000" debit 20%float))
           (run twoCustomersOps initialState))
      = history customerB (run twoCustomersOps initialState))
  /\ Customer.balance customerB = 0%float
  /\ history customerB (run twoCustomersOps initialState) = [].
Proof.
  split.
  - apply (record_leaves_other_customers
             (clockAt 3000) (transactionForm "1000" debit 20%float)
             (run twoCustomersOps initialState) 1 customerB).
    + reflexivity.
    + simpl. discriminate.
  - split; reflexivity.
Defined.

(** ** Deleting a customer *)

Lemma deleteCustomer_idempotent customerId st :
  step (DeleteCustomer customerId) (step (DeleteCustomer customerId) st)
  = step (DeleteCustomer customerId) st.
Proof.
  unfold step, dispatch, deleteCustomer, setCustomers, setTransactions. simpl. f_equal.
  - apply filter_all. intros c Hc. apply filter_In in Hc. tauto.
  - apply filter_all. intros t Ht. apply filter_In in Ht. tauto.
Qed.

(** C5. [deleteCustomer] is one transition of the state. In the state that
    follows it no customer carries the id any more and no transaction refers
    to it, while every other customer and every other transaction is kept;
    and the renders around the event are the state before and that state, so
    that no state with only one of the two removals is ever rendered. *)
Theorem deleteCustomer_cascades (customerId : string) (st : State) :
  hasId customerId (step (DeleteCustomer customerId) st) = false
  /\ (forall t, In t (transactions (step (DeleteCustomer customerId) st)) ->
                Transaction.customerId t <> customerId)
  /\ (forall c, In c (customers (step (DeleteCustomer customerId) st))
                <-> In c (customers st) /\ Customer.id c <> customerId)
  /\ (forall t, In t (transactions (step (DeleteCustomer customerId) st))
                <-> In t (transactions st) /\ Transaction.customerId t <> customerId)
  /\ renders [DeleteCustomer customerId] st = [st; step (DeleteCustomer customerId) st].
Proof.
  assert (Hc : forall c, In c (customers (step (DeleteCustomer customerId) st))
                         <-> In c (customers st) /\ Customer.id c <> customerId).
  { intro c. unfold step. simpl. rewrite filter_In, negb_true_iff, String.eqb_neq. tauto. }
  assert (Ht : forall t, In t (transactions (step (DeleteCustomer customerId) st))
                         <-> In t (transactions st) /\ Transaction.customerId t <> customerId).
  { intro t. unfold step. simpl. rewrite filter_In, negb_true_iff, String.eqb_neq. tauto. }
  split; [|split; [|split; [exact Hc | split; [exact Ht | reflexivity]]]].
  - apply not_true_is_false. intro H. apply hasId_In in H.
    apply in_map_iff in H. destruct H as [c [Hid Hin]].
    apply Hc in Hin. tauto.
  - intros t Hin. apply Ht in Hin. tauto.
Qed.

(** C9. In every state the ledger reaches from the empty store, deleting an
    id that no customer carries changes neither collection, and what is
    notified is a success, not an error. *)
Theorem deleteCustomer_unknown_is_noop (ops : list Op) (customerId : string) :
  hasId customerId (run ops initialState) = false ->
  deleteCustomer customerId (run ops initialState)
  = (run ops initialState, Some (showNotification "Customer deleted successfully!" success)).
Proof.
  intro Hid.
  pose proof (noOrphans_run ops initialState noOrphans_initial) as Hno.
  unfold deleteCustomer, setCustomers, setTransactions. simpl.
  destruct (run ops initialState) as [cs ts] eqn:E. simpl in *.
  f_equal. f_equal.
  - apply filter_all. intros c Hc. apply negb_true_iff.
    destruct (String.eqb (Customer.id c) customerId) eqn:Ec; [|reflexivity].
    apply String.eqb_eq in Ec.
    assert (hasId customerId (mkState cs ts) = true)
      by (apply hasId_In; simpl; rewrite <- Ec; apply in_map; assumption).
    congruence.
  - apply filter_all. intros t Ht. apply negb_true_iff.
    destruct (String.eqb (Transaction.customerId t) customerId) eqn:Et; [|reflexivity].
    apply String.eqb_eq in Et. specialize (Hno t Ht). congruence.
Qed.

Lemma deleteCustomer_unknown_is_noop_witness :
  deleteCustomer "4242" (run scenarioOps initialState)
  = (run scenarioOps initialState,
     Some (showNotification "Customer deleted successfully!" success)).
Proof.
  apply (deleteCustomer_unknown_is_noop scenarioOps "4242").
  reflexivity.
Defined.

(** ** Creating a customer *)




(** C10. When the opening balance typed in does not parse as a number, so that
    [parseFloat] gives [NaN], the customer is created all the same, and its
    opening balance and its balance are both 0. *)
Theorem unparseable_opening_balance_is_zero (clk : Clock) (form : CustomerForm) (st : State) :
  PrimFloat.is_nan (openingBalanceInput form) = true ->
  exists c,
    handleCustomerSubmit clk form st
    = (mkState (customers st ++ [c]) (transactions st),
       Some (showNotification "Customer added successfully!" success))
    /\ Customer.openingBalance c = 0%float
    /\ Customer.balance c = 0%float
    /\ Customer.balance c = ledgerSum (Customer.openingBalance c) [].
Proof.
  intro Hnan. eexists. split; [reflexivity|]. simpl.
  unfold or_else, truthy. rewrite Hnan. simpl. repeat split.
Qed.

Lemma unparseable_opening_balance_is_zero_witness :
  exists c,
    handleCustomerSubmit (clockAt 1000) (customerForm "C" PrimFloat.nan) initialState
    = (mkState (customers initialState ++ [c]) (transactions initialState),
       Some (showNotification "Customer added successfully!" success))
    /\ Customer.openingBalance c = 0%float
    /\ Customer.balance c = 0%float
    /\ Customer.balance c = ledgerSum (Customer.openingBalance c) [].
Proof.
  apply (unparseable_opening_balance_is_zero
           (clockAt 1000) (customerForm "C" PrimFloat.nan) initialState).
  reflexivity.
Defined.

(** * Further properties of the page *)

(** ** Ids and the clock *)

Lemma toString_injective n m : toString n = toString m -> n = m.
Proof.
  unfold toString. intro H.
  assert (Some (N.to_uint n) = Some (N.to_uint m)) as E
    by (rewrite <- !NilEmpty.usu, H; reflexivity).
  injection E as E. apply DecimalN.Unsigned.to_uint_inj. exact E.
Qed.

(** The ids of the customers after an event: the ones before, and the one of
    the customer the event creates. *)
Lemma hasId_step cid op st :
  hasId cid (step op st) = true ->
  hasId cid st = true
  \/ exists clk form, op = CreateCustomer clk form /\ cid = toString (now clk).
Proof.
  destruct op as [clk form|clk form|del]; unfold step, dispatch; intro H.
  - apply hasId_In in H. simpl in H. rewrite map_app in H.
    apply in_app_or in H. destruct H as [H|[H|[]]].
    + left. apply hasId_In. assumption.
    + right. exists clk, form. split; [reflexivity | symmetry; exact H].
  - left. lookup_customer form st customer Hfind.
    + rewrite (handleTransactionSubmit_found _ _ _ _ Hfind) in H.
      apply hasId_In in H. simpl in H. rewrite updatedCustomers_ids in H.
      apply hasId_In. assumption.
    + unfold handleTransactionSubmit in H. rewrite Hfind in H. assumption.
  - left. apply hasId_In in H. simpl in H. apply in_map_iff in H.
    destruct H as [c [Hid Hin]]. apply filter_In in Hin.
    apply hasId_In. rewrite <- Hid. apply in_map. tauto.
Qed.

Lemma freshIds_of_distinct_times ops st :
  NoDup (creationTimes ops) ->
  (forall n, In n (creationTimes ops) -> hasId (toString n) st = false) ->
  freshIds ops st = true.
Proof.
  revert st. induction ops as [|op ops IH]; intros st Hnd Hst; [reflexivity|].
  simpl. apply andb_true_iff. split.
  - destruct op as [clk form| |]; try reflexivity.
    apply negb_true_iff. apply Hst. simpl. left. reflexivity.
  - assert (Hrest : NoDup (creationTimes ops) /\
                    forall n, In n (creationTimes ops) -> In n (creationTimes (op :: ops)))
      by (destruct op; simpl in *; [inversion Hnd; subst|..]; auto).
    destruct Hrest as [Hnd' Hsub].
    apply IH; [assumption|].
    intros n Hn. apply not_true_is_false. intro Hid.
    apply hasId_step in Hid. destruct Hid as [Hid|(clk & form & -> & Heq)].
    + rewrite (Hst n (Hsub n Hn)) in Hid. discriminate.
    + apply toString_injective in Heq. subst n.
      simpl in Hnd. inversion Hnd; subst. contradiction.
Qed.

(** X1. When no two customers of a run are created at the same reading of
    [Date.now()], every new customer gets an id that no customer of the store
    carries: the condition the balance theorems ask for holds. *)
Theorem distinct_creation_times_give_fresh_ids (ops : list Op) :
  NoDup (creationTimes ops) -> freshIds ops initialState = true.
Proof.
  intro Hnd. apply freshIds_of_distinct_times; [assumption|].
  intros n _. reflexivity.
Qed.

Lemma distinct_creation_times_give_fresh_ids_witness :
  freshIds twoCustomersOps initialState = true.
Proof.
  apply (distinct_creation_times_give_fresh_ids twoCustomersOps).
  simpl. repeat constructor; simpl; intuition discriminate.
Defined.

(** X2. Along a run that gives every new customer a fresh id, no two customers
    of the store ever share an id: recording a transaction and deleting a
    customer keep the ids apart. *)
Theorem customer_ids_stay_unique (ops : list Op) :
  freshIds ops initialState = true ->
  NoDup (map Customer.id (customers (run ops initialState))).
Proof.
  intro Hfresh.
  destruct (ledgerInvariant_run ops initialState ledgerInvariant_initial Hfresh)
    as (Huniq & _ & _).
  exact Huniq.
Qed.

Lemma customer_ids_stay_unique_witness :
  NoDup (map Customer.id (customers (run twoCustomersOps initialState))).
Proof.
  apply (customer_ids_stay_unique twoCustomersOps). reflexivity.
Defined.

(** X3. In every state the ledger reaches from the empty store, every
    transaction refers to a customer of the store: no handler leaves an
    orphan. *)
Theorem transactions_refer_to_customers (ops : list Op) (t : Transaction.t) :
  In t (transactions (run ops initialState)) ->
  exists c,
    In c (customers (run ops initialState))
    /\ Customer.id c = Transaction.customerId t.
Proof.
  intro Ht.
  pose proof (noOrphans_run ops initialState noOrphans_initial t Ht) as H.
  apply hasId_In in H. apply in_map_iff in H.
  destruct H as [c [Hid Hc]]. exists c. split; assumption.
Qed.

Lemma transactions_refer_to_customers_witness :
  exists c,
    In c (customers (run scenarioOps initialState))
    /\ Customer.id c = Transaction.customerId scenarioCredit.
Proof.
  apply (transactions_refer_to_customers scenarioOps scenarioCredit).
  simpl. right. left. reflexivity.
Defined.

(** ** What recording a transaction keeps and writes *)

(** X4. Recording a transaction, successful or not, keeps the customers in
    number and in order and changes nothing of any customer but its balance
    and the date of its last transaction: id, name, phone, email, address,
    opening balance and notes stay what they were. *)
Theorem record_keeps_profiles (clk : Clock) (form : TransactionForm) (st : State) :
  map profile (customers (step (RecordTransaction clk form) st))
  = map profile (customers st).
Proof.
  unfold step, dispatch. lookup_customer form st customer Hfind.
  - rewrite (handleTransactionSubmit_found _ _ _ _ Hfind). simpl.
    unfold updatedCustomers. rewrite map_map. apply map_ext. intro c.
    destruct (String.eqb (Customer.id c) (transactionCustomer form)); reflexivity.
  - unfold handleTransactionSubmit. rewrite Hfind. reflexivity.
Qed.

Lemma step_appends op st :
  match op with DeleteCustomer _ => false | _ => true end = true ->
  exists l, transactions (step op st) = transactions st ++ l.
Proof.
  destruct op as [clk form|clk form|cid]; intro H; [| |discriminate].
  - exists []. unfold step. simpl. symmetry. apply app_nil_r.
  - unfold step, dispatch. lookup_customer form st customer Hfind.
    + rewrite (handleTransactionSubmit_found _ _ _ _ Hfind). simpl. eauto.
    + unfold handleTransactionSubmit. rewrite Hfind. simpl.
      exists []. symmetry. apply app_nil_r.
Qed.

(** X5. The transactions are append-only: along a run in which no customer is
    deleted, the transactions recorded before are kept as they are and in
    their order, and the new ones come after them. *)
Theorem transactions_are_append_only (ops : list Op) (st : State) :
  withoutDeletion ops = true ->
  exists l, transactions (run ops st) = transactions st ++ l.
Proof.
  revert st. induction ops as [|op ops IH]; intros st H; simpl.
  - exists []. symmetry. apply app_nil_r.
  - simpl in H. apply andb_true_iff in H. destruct H as [Hop Hops].
    destruct (IH (step op st) Hops) as [l2 E2].
    destruct (step_appends op st Hop) as [l1 E1].
    exists (l1 ++ l2). rewrite E2, E1, app_assoc. reflexivity.
Qed.

Lemma transactions_are_append_only_witness :
  exists l,
    transactions
      (run [RecordTransaction (clockAt 4000) (transactionForm "1000" debit 5%float);
            CreateCustomer (clockAt 5000) (customerForm "D" 0%float)]
         (run scenarioOps initialState))
    = transactions (run scenarioOps initialState) ++ l.
Proof.
  apply (transactions_are_append_only
           [RecordTransaction (clockAt 4000) (transactionForm "1000" debit 5%float);
            CreateCustomer (clockAt 5000) (customerForm "D" 0%float)]
           (run scenarioOps initialState)).
  reflexivity.
Defined.

(** X6. A successful recording appends one transaction, last of the
    collection, for the id of the form, and stamps every customer that carries
    the id with the running balance written into that transaction and with the
    date of the clock, whatever date the form gives; the date of the form, or
    the day of the clock when the form gives none, goes to the transaction
    only. *)
Theorem record_stamps_the_customer
  (clk : Clock) (form : TransactionForm) (st : State) (customer c : Customer.t) :
  find (fun c => String.eqb (Customer.id c) (transactionCustomer form)) (customers st)
  = Some customer ->
  In c (customers (step (RecordTransaction clk form) st)) ->
  Customer.id c = transactionCustomer form ->
  exists t,
    transactions (step (RecordTransaction clk form) st) = transactions st ++ [t]
    /\ Transaction.customerId t = transactionCustomer form
    /\ Transaction.balance t
       = newBalance (transactionType form) (Customer.balance customer) (transactionAmount form)
    /\ Transaction.date t
       = (if String.eqb (transactionDate form) "" then isoDate clk else transactionDate form)
    /\ Customer.balance c = Transaction.balance t
    /\ Customer.lastTransaction c = localeDate clk.
Proof.
  intros Hfind Hc Hid. exists (recordedTransaction clk form customer).
  unfold step, dispatch in *.
  rewrite (handleTransactionSubmit_found _ _ _ _ Hfind) in *. simpl in *.
  unfold updatedCustomers in Hc. apply in_map_iff in Hc.
  destruct Hc as [c0 [Hupd Hc0]].
  destruct (String.eqb (Customer.id c0) (transactionCustomer form)) eqn:E.
  - subst c. simpl. repeat split.
  - subst c0. apply String.eqb_neq in E. contradiction.
Qed.

Lemma record_stamps_the_customer_witness :
  exists t,
    transactions (run scenarioOps initialState) = [scenarioDebit] ++ [t]
    /\ Transaction.customerId t = "1000"
    /\ Transaction.balance t = 120%float
    /\ Transaction.date t = "2026-11-02"
    /\ Customer.balance scenarioCustomer = Transaction.balance t
    /\ Customer.lastTransaction scenarioCustomer = "11/2/2026".
Proof.
  apply (record_stamps_the_customer
           (clockAt 3000) (transactionForm "1000" credit 30%float)
           (run [CreateCustomer (clockAt 1000) (customerForm "C" 100%float);
                 RecordTransaction (clockAt 2000) (transactionForm "1000" debit 50%float)]
              initialState)
           (Customer.mk "1000" "C" "" "" "" 100%float "" 150%float "11/2/2026")
           scenarioCustomer).
  - reflexivity.
  - simpl. left. reflexivity.
  - reflexivity.
Defined.

(** X7. Every value the customer select of the transaction form offers, the
    placeholder apart, resolves: a transaction submitted for it is recorded,
    exactly one transaction is appended, and success is notified. *)
Theorem offered_customer_is_recorded (clk : Clock) (form : TransactionForm) (st : State) :
  In (transactionCustomer form) (transactionCustomerOptions st) ->
  transactionCustomer form <> "" ->
  exists customer,
    In customer (customers st)
    /\ Customer.id customer = transactionCustomer form
    /\ handleTransactionSubmit clk form st
       = (mkState (updatedCustomers clk form customer (customers st))
                  (transactions st ++ [recordedTransaction clk form customer]),
          Some (showNotification "Transaction recorded successfully!" success)).
Proof.
  intros [Hempty|Hin] Hne; [congruence|].
  assert (Hid : hasId (transactionCustomer form) st = true) by (apply hasId_In; assumption).
  lookup_customer form st customer Hfind.
  - destruct (find_hasId _ _ _ Hfind) as (Hc & Hcid & _).
    exists customer. repeat split; try assumption.
    apply handleTransactionSubmit_found. assumption.
  - unfold hasId in Hid. apply existsb_exists in Hid. destruct Hid as [c [Hc Hcid]].
    pose proof (find_none _ _ Hfind c Hc) as Hnone. simpl in Hnone. congruence.
Qed.

Lemma offered_customer_is_recorded_witness :
  exists customer,
    In customer (customers (run twoCustomersOps initialState))
    /\ Customer.id customer = "2000"
    /\ handleTransactionSubmit (clockAt 3000) (transactionForm "2000" debit 20%float)
         (run twoCustomersOps initialState)
       = (mkState
            (updatedCustomers (clockAt 3000) (transactionForm "2000" debit 20%float) customer
               (customers (run twoCustomersOps initialState)))
            (transactions (run twoCustomersOps initialState)
             ++ [recordedTransaction (clockAt 3000) (transactionForm "2000" debit 20%float)
                   customer]),
          Some (showNotification "Transaction recorded successfully!" success)).
Proof.
  apply (offered_customer_is_recorded
           (clockAt 3000) (transactionForm "2000" debit 20%float)
           (run twoCustomersOps initialState)).
  - simpl. right. right. left. reflexivity.
  - simpl. discriminate.
Defined.

(** ** What the table and the history show *)

Lemma last_runningBalances b h :
  last (runningBalances b h) b = fold_left applyTransaction h b.
Proof.
  induction h as [|t h IH] using rev_ind; [reflexivity|].
  rewrite runningBalances_app, fold_left_app, last_last. reflexivity.
Qed.

(** X8. Along a run with fresh ids, the balance stored with a customer is the
    running balance of the last transaction of its history, and its opening
    balance while the history is empty: the table and the last row of the
    history always agree. *)
Theorem stored_balance_is_last_recorded (ops : list Op) (c : Customer.t) :
  freshIds ops initialState = true ->
  In c (customers (run ops initialState)) ->
  Customer.balance c = lastRecordedBalance c (history c (run ops initialState)).
Proof.
  intros Hfresh Hc.
  destruct (ledgerInvariant_run ops initialState ledgerInvariant_initial Hfresh)
    as (_ & _ & Hcons).
  destruct (Hcons c Hc) as [Hbal Hrun].
  unfold lastRecordedBalance. rewrite Hrun, last_runningBalances. exact Hbal.
Qed.

Lemma stored_balance_is_last_recorded_witness :
  Customer.balance scenarioCustomer
  = lastRecordedBalance scenarioCustomer (history scenarioCustomer (run scenarioOps initialState)).
Proof.
  apply (stored_balance_is_last_recorded scenarioOps scenarioCustomer).
  - reflexivity.
  - simpl. left. reflexivity.
Defined.

(** ** Creating and deleting *)

(** X9. In a state the ledger reaches, a customer created with a fresh id
    starts with an empty history, and the creation leaves the history of every
    customer, and every customer already there, as it was. *)
Theorem created_customer_starts_empty (ops : list Op) (clk : Clock) (form : CustomerForm) :
  hasId (toString (now clk)) (run ops initialState) = false ->
  exists c,
    customers (step (CreateCustomer clk form) (run ops initialState))
    = customers (run ops initialState) ++ [c]
    /\ history c (step (CreateCustomer clk form) (run ops initialState)) = []
    /\ forall b, history b (step (CreateCustomer clk form) (run ops initialState))
                 = history b (run ops initialState).
Proof.
  intro Hfresh. eexists. split; [reflexivity|]. split; [|reflexivity].
  apply (history_unknown (run ops initialState)).
  - apply noOrphans_run. exact noOrphans_initial.
  - exact Hfresh.
Qed.

Lemma created_customer_starts_empty_witness :
  exists c,
    customers (step (CreateCustomer (clockAt 5000) aliceForm) (run scenarioOps initialState))
    = customers (run scenarioOps initialState) ++ [c]
    /\ history c (step (CreateCustomer (clockAt 5000) aliceForm) (run scenarioOps initialState))
       = []
    /\ forall b,
         history b (step (CreateCustomer (clockAt 5000) aliceForm) (run scenarioOps initialState))
         = history b (run scenarioOps initialState).
Proof.
  apply (created_customer_starts_empty scenarioOps (clockAt 5000) aliceForm).
  reflexivity.
Defined.

(** X10. Deleting a customer leaves every customer with another id in the
    store, with the record it had, and leaves the history of that customer as
    it was. *)
Theorem delete_leaves_other_customers (customerId : string) (st : State) (b : Customer.t) :
  In b (customers st) ->
  Customer.id b <> customerId ->
  In b (customers (step (DeleteCustomer customerId) st))
  /\ history b (step (DeleteCustomer customerId) st) = history b st.
Proof.
  intros Hb Hid. split.
  - unfold step. simpl. apply filter_In. split; [assumption|].
    apply negb_true_iff, String.eqb_neq. assumption.
  - apply history_delete. assumption.
Qed.

Lemma delete_leaves_other_customers_witness :
  In scenarioCustomer (customers (step (DeleteCustomer "4242") (run scenarioOps initialState)))
  /\ history scenarioCustomer (step (DeleteCustomer "4242") (run scenarioOps initialState))
     = history scenarioCustomer (run scenarioOps initialState).
Proof.
  apply (delete_leaves_other_customers "4242" (run scenarioOps initialState) scenarioCustomer).
  - simpl. left. reflexivity.
  - simpl. discriminate.
Defined.

(** X11. Two deletions commute: deleting two customers in one order or in the
    other leaves the same state. *)
Theorem deletions_commute (a b : string) (st : State) :
  step (DeleteCustomer a) (step (DeleteCustomer b) st)
  = step (DeleteCustomer b) (step (DeleteCustomer a) st).
Proof.
  unfold step, dispatch, deleteCustomer, setCustomers, setTransactions. simpl.
  rewrite !filter_filter. f_equal; apply filter_agree; intros x _; apply andb_comm.
Qed.

(** X12. In a state the ledger reaches, creating a customer with a fresh id
    and deleting it again gives back the state before the creation. *)
Theorem create_then_delete_restores (ops : list Op) (clk : Clock) (form : CustomerForm) :
  hasId (toString (now clk)) (run ops initialState) = false ->
  step (DeleteCustomer (toString (now clk)))
    (step (CreateCustomer clk form) (run ops initialState))
  = run ops initialState.
Proof.
  intro Hfresh.
  pose proof (noOrphans_run ops initialState noOrphans_initial) as Hno.
  destruct (run ops initialState) as [cs ts] eqn:E.
  unfold step, dispatch, deleteCustomer, handleCustomerSubmit, setCustomers, setTransactions.
  simpl. f_equal.
  - rewrite filter_app. simpl. rewrite String.eqb_refl. simpl. rewrite app_nil_r.
    apply filter_all. intros c Hc. apply negb_true_iff.
    destruct (String.eqb (Customer.id c) (toString (now clk))) eqn:Ec; [|reflexivity].
    apply String.eqb_eq in Ec.
    assert (hasId (toString (now clk)) (mkState cs ts) = true)
      by (apply hasId_In; simpl; rewrite <- Ec; apply in_map; assumption).
    congruence.
  - apply filter_all. intros t Ht. apply negb_true_iff.
    destruct (String.eqb (Transaction.customerId t) (toString (now clk))) eqn:Et;
      [|reflexivity].
    apply String.eqb_eq in Et. specialize (Hno t Ht). simpl in Hno. congruence.
Qed.

Lemma create_then_delete_restores_witness :
  step (DeleteCustomer (toString (now (clockAt 5000))))
    (step (CreateCustomer (clockAt 5000) aliceForm) (run scenarioOps initialState))
  = run scenarioOps initialState.
Proof.
  apply (create_then_delete_restores scenarioOps (clockAt 5000) aliceForm).
  reflexivity.
Defined.

Lemma or_else_zero_not_nan x : PrimFloat.is_nan (or_else x 0%float) = false.
Proof.
  unfold or_else, truthy.
  destruct (PrimFloat.is_nan x) eqn:E; simpl; [reflexivity|].
  destruct (PrimFloat.is_zero x); simpl; [reflexivity | exact E].
Qed.

Lemma openingBalance_not_nan_step op st :
  (forall c, In c (customers st) -> PrimFloat.is_nan (Customer.openingBalance c) = false) ->
  forall c, In c (customers (step op st)) ->
            PrimFloat.is_nan (Customer.openingBalance c) = false.
Proof.
  intros Hst c Hc. destruct op as [clk form|clk form|cid]; unfold step, dispatch in Hc.
  - simpl in Hc. apply in_app_or in Hc. destruct Hc as [Hc|[<-|[]]]; [auto|].
    simpl. apply or_else_zero_not_nan.
  - lookup_customer form st customer Hfind.
    + rewrite (handleTransactionSubmit_found _ _ _ _ Hfind) in Hc. simpl in Hc.
      unfold updatedCustomers in Hc. apply in_map_iff in Hc.
      destruct Hc as [c0 [Hupd Hc0]]. specialize (Hst c0 Hc0).
      destruct (String.eqb (Customer.id c0) (transactionCustomer form));
        subst c; exact Hst.
    + unfold handleTransactionSubmit in Hc. rewrite Hfind in Hc. auto.
  - simpl in Hc. apply filter_In in Hc. apply Hst. tauto.
Qed.

(** X13. Whatever is typed in the forms, the opening balance of a customer of
    the store is never [NaN]: what does not parse enters as 0, and no later
    event touches the opening balance. *)
Theorem opening_balance_is_never_nan (ops : list Op) (c : Customer.t) :
  In c (customers (run ops initialState)) ->
  PrimFloat.is_nan (Customer.openingBalance c) = false.
Proof.
  assert (H : forall st,
             (forall c, In c (customers st) ->
                        PrimFloat.is_nan (Customer.openingBalance c) = false) ->
             forall c, In c (customers (run ops st)) ->
                       PrimFloat.is_nan (Customer.openingBalance c) = false).
  { induction ops as [|op ops IH]; intros st Hst; simpl; [assumption|].
    apply IH. apply openingBalance_not_nan_step. assumption. }
  apply H. intros c0 [].
Qed.

Lemma opening_balance_is_never_nan_witness :
  PrimFloat.is_nan
    (Customer.openingBalance (Customer.mk "1000" "N" "" "" "" 0%float "" PrimFloat.nan "11/2/2026"))
  = false.
Proof.
  apply (opening_balance_is_never_nan
           [CreateCustomer (clockAt 1000) (customerForm "N" PrimFloat.nan);
            RecordTransaction (clockAt 2000) (transactionForm "1000" debit PrimFloat.nan)]).
  simpl. left. reflexivity.
Defined.

(** ** The search box *)

Lemma prefix_iff t s : String.prefix t s = true <-> exists b, s = (t ++ b)%string.
Proof.
  revert s. induction t as [|ch t IH]; intro s.
  - split; [intros _; exists s; reflexivity | intros _; destruct s; reflexivity].
  - destruct s as [|ch' s]; simpl.
    + split; [discriminate | intros [b Hb]; discriminate].
    + destruct (Ascii.ascii_dec ch ch') as [->|Hne].
      * rewrite IH. split; intros [b Hb]; exists b; [rewrite Hb; reflexivity|].
        injection Hb as Hb. exact Hb.
      * split; [discriminate|]. intros [b Hb]. injection Hb as Hch _. congruence.
Qed.

(** [includes] is the occurrence of a substring. *)
Lemma includes_iff s t :
  includes s t = true <-> exists a b, s = (a ++ t ++ b)%string.
Proof.
  induction s as [|ch s IH].
  - change (includes "" t) with (String.prefix t "" || false).
    rewrite orb_false_r, prefix_iff. split.
    + intros [b Hb]. exists "", b. exact Hb.
    + intros [a [b Hab]]. destruct a; [exists b; exact Hab | discriminate].
  - change (includes (String ch s) t) with (String.prefix t (String ch s) || includes s t).
    rewrite orb_true_iff, prefix_iff, IH. split.
    + intros [[b Hb]|[a [b Hab]]].
      * exists "", b. exact Hb.
      * exists (String ch a), b. simpl. rewrite Hab. reflexivity.
    + intros [a [b Hab]]. destruct a as [|ch' a]; simpl in Hab.
      * left. exists b. exact Hab.
      * right. injection Hab as _ Hab. exists a, b. exact Hab.
Qed.

Lemma includes_empty s : includes s "" = true.
Proof. apply includes_iff. exists "", s. reflexivity. Qed.

Lemma includes_itself s : includes s s = true.
Proof.
  apply includes_iff. exists "", "". simpl.
  induction s as [|ch s IH]; simpl; [reflexivity | rewrite <- IH; reflexivity].
Qed.

Lemma filter_map_swap {A B} (g : A -> B) (p : B -> bool) l :
  filter p (map g l) = map g (filter (fun x => p (g x)) l).
Proof.
  induction l as [|a l IH]; simpl; [reflexivity|].
  destruct (p (g a)); simpl; rewrite IH; reflexivity.
Qed.

Section SearchFacts.

Variable toLowerCase : string -> string.

(** X14. With an empty search term the table lists every customer of the
    store, in the order of the store. *)
Theorem empty_search_lists_all (st : State) :
  filteredCustomers toLowerCase "" st = customers st.
Proof.
  unfold filteredCustomers. apply filter_all. intros c _.
  unfold matchesSearch. rewrite (includes_empty (Customer.phone c)).
  apply orb_true_iff. left. apply orb_true_r.
Qed.

(** X15. A customer just created is found by its name, in whatever letter case
    the name is typed in the search box. *)
Theorem created_customer_is_found
  (clk : Clock) (form : CustomerForm) (st : State) (searchTerm : string) :
  toLowerCase searchTerm = toLowerCase (customerName form) ->
  exists c,
    In c (filteredCustomers toLowerCase searchTerm (step (CreateCustomer clk form) st))
    /\ Customer.id c = toString (now clk)
    /\ Customer.name c = customerName form.
Proof.
  intro Hterm.
  exists (Customer.mk (toString (now clk)) (customerName form) (customerPhone form)
            (customerEmail form) (customerAddress form)
            (or_else (openingBalanceInput form) 0%float) (customerNotes form)
            (or_else (openingBalanceInput form) 0%float) (localeDate clk)).
  split; [|split; reflexivity].
  unfold filteredCustomers, step. simpl. apply filter_In. split.
  - apply in_or_app. right. left. reflexivity.
  - unfold matchesSearch. simpl. rewrite Hterm, includes_itself. reflexivity.
Qed.

(** X16. Recording a transaction does not change what a search lists: the
    same customers, in the same order, with the same id, name, phone, email,
    address, opening balance and notes. *)
Theorem record_keeps_search_results
  (clk : Clock) (form : TransactionForm) (st : State) (searchTerm : string) :
  map profile (filteredCustomers toLowerCase searchTerm (step (RecordTransaction clk form) st))
  = map profile (filteredCustomers toLowerCase searchTerm st).
Proof.
  unfold filteredCustomers, step, dispatch. lookup_customer form st customer Hfind.
  - rewrite (handleTransactionSubmit_found _ _ _ _ Hfind). simpl.
    unfold updatedCustomers. rewrite filter_map_swap, map_map.
    rewrite (filter_agree _ (matchesSearch toLowerCase searchTerm)).
    + apply map_ext. intro c.
      destruct (String.eqb (Customer.id c) (transactionCustomer form)); reflexivity.
    + intros c _.
      destruct (String.eqb (Customer.id c) (transactionCustomer form)); reflexivity.
  - unfold handleTransactionSubmit. rewrite Hfind. reflexivity.
Qed.

(** X17. After a deletion a search lists what it listed before, less the
    customers that carried the deleted id. *)
Theorem delete_filters_search_results (customerId searchTerm : string) (st : State) :
  filteredCustomers toLowerCase searchTerm (step (DeleteCustomer customerId) st)
  = filter (fun c => negb (String.eqb (Customer.id c) customerId))
      (filteredCustomers toLowerCase searchTerm st).
Proof.
  unfold filteredCustomers, step. simpl. rewrite !filter_filter.
  apply filter_agree. intros c _. apply andb_comm.
Qed.

End SearchFacts.

Lemma created_customer_is_found_witness :
  exists c,
    In c (filteredCustomers lowerAscii "alice MARTIN"
            (step (CreateCustomer (clockAt 5000) aliceForm) (run scenarioOps initialState)))
    /\ Customer.id c = toString (now (clockAt 5000))
    /\ Customer.name c = customerName aliceForm.
Proof.
  apply (created_customer_is_found lowerAscii (clockAt 5000) aliceForm
           (run scenarioOps initialState) "alice MARTIN").
  reflexivity.
Defined.
